(** * A shallow embedding of main.py of zotero-arxiv-daily

    The script is one sequential run: read the configuration, gather
    keywords from Zotero, search arXiv, score every candidate with Gemini,
    keep the high scores, sort them and mail a digest.  Each external
    service is an oracle in the run's environment; every contact with a
    service is an [event] appended to a trace.  Python exceptions that are
    not caught inside [main] are the [Exc] results of the run's monad. *)

From Stdlib Require Import List ZArith String Ascii Bool Lia Sorted Permutation.
Import ListNotations.

#[local] Set Warnings "-register-all".

Local Open Scope Z_scope.
Local Open Scope string_scope.

(** ** Python values produced by [json.loads]

    JSON numbers are modelled as integers (the prompt asks for an integer
    score); [json.loads] also reads numbers with a fraction or an exponent,
    and Infinity and NaN, as floats, which this development leaves out.
    Objects keep their key/value pairs in text order. *)

Inductive jvalue : Type :=
| JNull
| JBool (b : bool)
| JNum (n : Z)
| JStr (s : string)
| JArr (xs : list jvalue)
| JObj (kv : list (string * jvalue)).

(** [json.loads] builds a dict in which the last binding of a repeated key
    wins. *)
Fixpoint assoc_last (k : string) (kv : list (string * jvalue)) : option jvalue :=
  match kv with
  | [] => None
  | (k', v) :: rest =>
      match assoc_last k rest with
      | Some w => Some w
      | None => if String.eqb k k' then Some v else None
      end
  end.

(** [d.get(k, default)]: [None] when [d] is not a dict (AttributeError). *)
Definition dict_get (d : jvalue) (k : string) (default : jvalue) : option jvalue :=
  match d with
  | JObj kv => Some (match assoc_last k kv with Some v => v | None => default end)
  | _ => None
  end.

(** [v >= n] for an int [n]: bools compare as 0/1, every other JSON value
    raises TypeError ([None]). *)
Definition py_ge (v : jvalue) (n : Z) : option bool :=
  match v with
  | JNum m => Some (Z.leb n m)
  | JBool b => Some (Z.leb n (if b then 1 else 0))
  | _ => None
  end.

(** Truthiness of an [os.environ.get] result: [None] and [""] are false. *)
Definition truthy (o : option string) : bool :=
  match o with
  | Some s => negb (String.eqb s "")
  | None => false
  end.

(** ** Text helpers *)

Definition nl : string := String (ascii_of_nat 10) EmptyString.

(** [sep.join(xs)] *)
Fixpoint join (sep : string) (xs : list string) : string :=
  match xs with
  | [] => ""
  | [x] => x
  | x :: rest => x ++ sep ++ join sep rest
  end.

(** [s * n] for a string [s] *)
Fixpoint repeat_str (s : string) (n : nat) : string :=
  match n with
  | O => ""
  | S k => s ++ repeat_str s k
  end.

(** [s.replace("\n", " ")] *)
Fixpoint replace_newlines (s : string) : string :=
  match s with
  | EmptyString => EmptyString
  | String c rest =>
      String (if Ascii.eqb c (ascii_of_nat 10) then " "%char else c)
             (replace_newlines rest)
  end.

(** Python strings are held as their UTF-8 bytes; [str.isascii()] holds
    exactly when every byte of that encoding is below 128. *)
Definition isascii (s : string) : bool :=
  forallb (fun c => Nat.ltb (nat_of_ascii c) 128) (list_ascii_of_string s).

(** [str(n)] for an int. *)
Fixpoint digits_aux (fuel : nat) (n : Z) (acc : string) : string :=
  match fuel with
  | O => acc
  | S f =>
      let acc' := String (ascii_of_nat (48 + Z.to_nat (n mod 10))) acc in
      if Z.ltb n 10 then acc' else digits_aux f (n / 10) acc'
  end.

Definition str_int (n : Z) : string :=
  if Z.ltb n 0 then "-" ++ digits_aux (Pos.size_nat (Z.to_pos (- n))) (- n) ""
  else digits_aux (S (Pos.size_nat (Z.to_pos n))) n "".

(** [repr] of a str, for its ASCII characters as CPython writes it: the
    quote is a single quote unless the string holds a single quote and no
    double quote, backslash and
    the chosen quote are escaped, tab, newline and carriage return become
    [\t], [\n], [\r], and the other control characters [\xhh].  Bytes
    of non-ASCII characters are copied, as [repr] does for the printable
    ones. *)
Definition hex_digit (n : nat) : ascii :=
  ascii_of_nat (if Nat.ltb n 10 then 48 + n else 87 + n).

Fixpoint repr_body (q : ascii) (s : string) : string :=
  match s with
  | EmptyString => EmptyString
  | String c rest =>
      let n := nat_of_ascii c in
      (if Ascii.eqb c q || Ascii.eqb c "\"%char then String "\"%char (String c "")
       else if Nat.eqb n 9 then "\t"
       else if Nat.eqb n 10 then "\n"
       else if Nat.eqb n 13 then "\r"
       else if Nat.ltb n 32 || Nat.eqb n 127 then
         String "\"%char (String "x"%char
           (String (hex_digit (n / 16)) (String (hex_digit (n mod 16)) "")))
       else String c "")
      ++ repr_body q rest
  end.

Definition has_char (c : ascii) (s : string) : bool :=
  existsb (Ascii.eqb c) (list_ascii_of_string s).

Definition py_repr_str (s : string) : string :=
  let q := if has_char "'"%char s && negb (has_char "034"%char s) then "034"%char else "'"%char in
  String q (repr_body q s ++ String q "").

(** The value of the last binding of [k] among rendered pairs. *)
Fixpoint assoc_last_str (k : string) (kv : list (string * string)) : option string :=
  match kv with
  | [] => None
  | (k', v) :: rest =>
      match assoc_last_str k rest with
      | Some w => Some w
      | None => if String.eqb k k' then Some v else None
      end
  end.

(** The items of the dict [json.loads] builds from the (rendered) pairs: a
    repeated key keeps the place of its first binding and the value of its
    last one. *)
Fixpoint dict_items (seen : list string) (kv all : list (string * string)) : list string :=
  match kv with
  | [] => []
  | (k, _) :: rest =>
      if existsb (String.eqb k) seen then dict_items seen rest all
      else (py_repr_str k ++ ": " ++
            match assoc_last_str k all with Some v => v | None => "" end)
           :: dict_items (k :: seen) rest all
  end.

(** [str(v)] of a JSON value as an f-string prints it; the contents of a
    list or dict are printed by [repr]. *)
Fixpoint py_str (v : jvalue) : string :=
  match v with
  | JNull => "None"
  | JBool b => if b then "True" else "False"
  | JNum n => str_int n
  | JStr s => s
  | JArr xs =>
      "[" ++ join ", " ((fix go (l : list jvalue) : list string :=
                           match l with
                           | [] => []
                           | w :: r =>
                               (match w with JStr s => py_repr_str s | _ => py_str w end)
                               :: go r
                           end) xs) ++ "]"
  | JObj kv =>
      "{" ++ join ", " (dict_items []
                          ((fix go (l : list (string * jvalue)) : list (string * string) :=
                              match l with
                              | [] => []
                              | (k, w) :: r =>
                                  (k, match w with JStr s => py_repr_str s | _ => py_str w end)
                                  :: go r
                              end) kv)
                          ((fix go (l : list (string * jvalue)) : list (string * string) :=
                              match l with
                              | [] => []
                              | (k, w) :: r =>
                                  (k, match w with JStr s => py_repr_str s | _ => py_str w end)
                                  :: go r
                              end) kv)) ++ "}"
  end.

(** ** Events: every contact with an external service *)

Inductive event : Type :=
| ZoteroFetch                                (** [zot.top(limit=20)] *)
| ArxivSearch (query : string)               (** [client.results(search)] *)
| GeminiCall (call : nat) (title : string)   (** [model.generate_content] *)
| Sleep (seconds : Z)                        (** [time.sleep] *)
| SmtpDeliver (subject body : string).       (** the SMTP_SSL session *)

(** ** A state-and-exception monad for [main] *)

Inductive exc : Type := AttributeError | TypeError.

Inductive res (A : Type) : Type :=
| Ok (a : A)
| Exc (e : exc).
Arguments Ok {A} a.
Arguments Exc {A} e.

Definition M (A : Type) : Type := list event -> res A * list event.

Definition ret {A} (a : A) : M A := fun tr => (Ok a, tr).

Definition bind {A B} (m : M A) (k : A -> M B) : M B :=
  fun tr => match m tr with
            | (Ok a, tr') => k a tr'
            | (Exc e, tr') => (Exc e, tr')
            end.

Definition emit (ev : event) : M unit := fun tr => (Ok tt, (tr ++ [ev])%list).

Definition raise {A} (e : exc) : M A := fun tr => (Exc e, tr).

Definition lift {A} (o : option A) (e : exc) : M A :=
  match o with Some a => ret a | None => raise e end.

Notation "x <- m ;; k" := (bind m (fun x => k))
  (at level 61, m at next level, right associativity).

(** ** Records *)

(** A candidate dict of [search_arxiv]; [score] and [reason] are the keys
    the scoring loop may add ([None]: key absent). *)
Record paper : Type := mk_paper {
  title : string;
  abstract : string;
  url : string;
  authors : string;
  score : option jvalue;
  reason : option jvalue
}.

(** An [arxiv.Result]; instants are microseconds since the epoch, UTC. *)
Record arxiv_result : Type := mk_result {
  r_title : string;
  r_summary : string;
  r_entry_id : string;
  r_author_names : list string;
  r_published : Z
}.

(** [timedelta(hours=h)] in microseconds. *)
Definition hours (h : Z) : Z := h * 3600 * 1000000.

Definition dq : string := String (ascii_of_nat 34) EmptyString.

(** ** search_arxiv *)

Definition search_query (keywords : list string) : string :=
  let query_part := join " OR " (map (fun k => "abs:" ++ dq ++ k ++ dq) keywords) in
  "(" ++ query_part ++ ") AND cat:cs.*".

Definition to_candidate (r : arxiv_result) : paper :=
  {| title := r_title r;
     abstract := replace_newlines (r_summary r);
     url := r_entry_id r;
     authors := join ", " (firstn 3 (r_author_names r));
     score := None;
     reason := None |}.

(** The loop [for r in client.results(search): if r.published > yesterday]. *)
Fixpoint collect (yesterday : Z) (rs : list arxiv_result) : list paper :=
  match rs with
  | [] => []
  | r :: rest =>
      if Z.ltb yesterday (r_published r)
      then to_candidate r :: collect yesterday rest
      else collect yesterday rest
  end.

(** [client] answers a query with the results arXiv yields for it (at most
    [max_results = 40], newest submission first). *)
Definition search_arxiv (client : string -> list arxiv_result) (now : Z)
    (keywords : list string) : M (list paper) :=
  let q := search_query keywords in
  _ <- emit (ArxivSearch q) ;;
  let yesterday := now - hours 36 in
  ret (collect yesterday (client q)).

(** ** ai_review_paper *)

(** What [model.generate_content(prompt)] followed by
    [json.loads(response.text)] gives: an exception ([GenRaises]), a text
    that is not JSON ([GenText None]) or the parsed JSON value. *)
Inductive gen_outcome : Type :=
| GenRaises
| GenText (parsed : option jvalue).

Definition sentinel : jvalue := JObj [("score", JNum 0); ("reason", JStr "Error")].

Definition ai_review_paper (gemini : nat -> paper -> gen_outcome) (i : nat)
    (p : paper) : M jvalue :=
  _ <- emit (GeminiCall i (title p)) ;;
  match gemini i p with
  | GenText (Some v) => ret v
  | _ => _ <- emit (Sleep 1) ;; ret sentinel
  end.

(** ** The scoring loop of [main] *)

Definition enrich (p : paper) (s r : jvalue) : paper :=
  {| title := title p; abstract := abstract p; url := url p;
     authors := authors p; score := Some s; reason := Some r |}.

(** One iteration: the paper as it stands after the iteration, and whether
    it was appended to [high_quality_papers]. *)
Definition score_step (gemini : nat -> paper -> gen_outcome) (i : nat)
    (p : paper) : M (paper * bool) :=
  review <- ai_review_paper gemini i p ;;
  s <- lift (dict_get review "score" (JNum 0)) AttributeError ;;
  keep <- lift (py_ge s 7) TypeError ;;
  if keep then
    r <- lift (dict_get review "reason" (JStr "N/A")) AttributeError ;;
    _ <- emit (Sleep 2) ;;
    ret (enrich p s r, true)
  else
    _ <- emit (Sleep 2) ;;
    ret (p, false).

(** [for paper in candidates: ...]: the candidate list after the loop (its
    dicts mutated in place) and [high_quality_papers]. *)
Fixpoint review_loop (gemini : nat -> paper -> gen_outcome) (i : nat)
    (cands : list paper) : M (list paper * list paper) :=
  match cands with
  | [] => ret ([], [])
  | p :: rest =>
      step <- score_step gemini i p ;;
      tl <- review_loop gemini (S i) rest ;;
      ret (fst step :: fst tl, if snd step then fst step :: snd tl else snd tl)
  end.

(** ** [high_quality_papers.sort(key=lambda x: x['score'], reverse=True)]

    Python's sort is stable, also with [reverse=True]: the result is
    descending in the key and equal keys keep their order.  Every paper of
    [high_quality_papers] holds an int score (see [review_loop_hq_num]). *)
Definition sort_key (p : paper) : Z :=
  match score p with
  | Some (JNum n) => n
  | Some (JBool b) => if b then 1 else 0
  | _ => 0
  end.

Fixpoint insert_desc (x : paper) (l : list paper) : list paper :=
  match l with
  | [] => [x]
  | y :: l' => if Z.ltb (sort_key y) (sort_key x) then x :: l else y :: insert_desc x l'
  end.

Definition py_sort_desc (l : list paper) : list paper :=
  fold_left (fun acc x => insert_desc x acc) l [].

(** ** The mail body and subject *)

Definition header (count : Z) (date : string) : string :=
  "Gemini 为您精选了 " ++ str_int count ++ " 篇 FPGA/AI 硬件相关论文 (" ++ date
  ++ ")：" ++ nl ++ nl.

(** [p[key]] inside an f-string; every paper that is rendered has the key. *)
Definition field (o : option jvalue) : string :=
  match o with Some v => py_str v | None => "" end.

(** The four [content += ...] of one iteration of the rendering loop. *)
Definition render_paper (content : string) (p : paper) : string :=
  let content := content ++ ("【" ++ field (score p) ++ "分】 " ++ title p ++ nl) in
  let content := content ++ ("推荐理由: " ++ field (reason p) ++ nl) in
  let content := content ++ ("链接: " ++ url p ++ nl) in
  content ++ (repeat_str "-" 40 ++ nl).

Definition render (date : string) (hq : list paper) : string :=
  fold_left render_paper hq (header (Z.of_nat (List.length hq)) date).

Definition subject (count : Z) : string :=
  "🔥 Arxiv日报: " ++ str_int count ++ " 篇精选 (FPGA/ViT/Quant)".

(** ** get_keywords_from_zotero and main

    [set_iter] is [list(keywords)]: the iteration order of the Python set
    filled by the given sequence of [keywords.add] calls.  CPython fixes it
    from the string hashes and the insertion history; the code only relies
    on it listing each inserted string once. *)

Section Pipeline.

Variable set_iter : list string -> list string.

Definition core_keywords : list string :=
  ["FPGA"; "Quantization"; "Vision Transformer"; "Hardware Accelerator"].

(** The tags passed to [keywords.add]: the ASCII ones among the tags the
    loop visits. *)
Definition added_tags (tags : list string) : list string := filter isascii tags.

(** [final_keywords[:6]] with [final_keywords = list(keywords) + core_keywords]. *)
Definition final_keywords (added : list string) : list string :=
  firstn 6 (set_iter added ++ core_keywords).

(** [tags] are the tags the loop of the [try] block visits, in order,
    before it ends or raises (an exception leaves the added ones in the
    set); nothing is fetched unless both Zotero settings are truthy. *)
Definition get_keywords_from_zotero (z_id z_key : option string)
    (tags : list string) : M (list string) :=
  if truthy z_id && truthy z_key then
    _ <- emit ZoteroFetch ;;
    ret (final_keywords (added_tags tags))
  else ret (final_keywords []).

Record env : Type := mk_env {
  ZOTERO_USER_ID : option string;
  ZOTERO_API_KEY : option string;
  GEMINI_API_KEY : option string;
  zotero_tags : list string;
  arxiv_client : string -> list arxiv_result;
  now_utc : Z;            (** [datetime.now(timezone.utc)] *)
  today : string;         (** [datetime.now().strftime('%Y-%m-%d')] *)
  gemini : nat -> paper -> gen_outcome
}.

(** The SMTP session sits in a [try] that catches every exception, so its
    outcome does not change the run: it is the [SmtpDeliver] event. *)
Definition main (e : env) : M unit :=
  if negb (truthy (GEMINI_API_KEY e)) then ret tt else
  keywords <- get_keywords_from_zotero (ZOTERO_USER_ID e) (ZOTERO_API_KEY e) (zotero_tags e) ;;
  candidates <- search_arxiv (arxiv_client e) (now_utc e) keywords ;;
  match candidates with
  | [] => ret tt
  | _ :: _ =>
      loop <- review_loop (gemini e) 0 candidates ;;
      let high_quality_papers := py_sort_desc (snd loop) in
      match high_quality_papers with
      | [] => ret tt
      | _ :: _ =>
          let count := Z.of_nat (List.length high_quality_papers) in
          let content := render (today e) high_quality_papers in
          emit (SmtpDeliver (subject count) content)
      end
  end.

(** A run from the empty trace. *)
Definition run (e : env) : res unit * list event := main e [].

End Pipeline.

(** An admissible [set_iter]: each inserted string once, in first-insertion
    order. *)
Fixpoint first_seen_aux (seen : list string) (l : list string) : list string :=
  match l with
  | [] => []
  | x :: rest =>
      if existsb (String.eqb x) seen then first_seen_aux seen rest
      else x :: first_seen_aux (x :: seen) rest
  end.

Definition first_seen (l : list string) : list string := first_seen_aux [] l.

(** ** Derived views of one scoring iteration *)

(** The value [ai_review_paper] returns for call [i] on paper [p]. *)
Definition review_of (gemini : nat -> paper -> gen_outcome) (i : nat) (p : paper) : jvalue :=
  match gemini i p with
  | GenText (Some v) => v
  | _ => sentinel
  end.

(** [review.get('reason', 'N/A')] once [review.get('score', 0)] succeeded. *)
Definition reason_of (review : jvalue) : jvalue :=
  match dict_get review "reason" (JStr "N/A") with Some r => r | None => JStr "N/A" end.

(** A completed scoring loop, iteration by iteration: the candidates after
    the loop and [high_quality_papers]. *)
Inductive loop_rel (gemini : nat -> paper -> gen_outcome) :
    nat -> list paper -> list paper -> list paper -> Prop :=
| lr_nil i : loop_rel gemini i [] [] []
| lr_keep i p rest cs hq s :
    dict_get (review_of gemini i p) "score" (JNum 0) = Some s ->
    py_ge s 7 = Some true ->
    loop_rel gemini (S i) rest cs hq ->
    loop_rel gemini i (p :: rest)
      (enrich p s (reason_of (review_of gemini i p)) :: cs)
      (enrich p s (reason_of (review_of gemini i p)) :: hq)
| lr_drop i p rest cs hq s :
    dict_get (review_of gemini i p) "score" (JNum 0) = Some s ->
    py_ge s 7 = Some false ->
    loop_rel gemini (S i) rest cs hq ->
    loop_rel gemini i (p :: rest) (p :: cs) hq.


(** A paper without the keys the scoring loop adds. *)
Definition strip (p : paper) : paper :=
  {| title := title p; abstract := abstract p; url := url p;
     authors := authors p; score := None; reason := None |}.

(** The keywords [main] searches with. *)
Definition keywords_of (set_iter : list string -> list string) (e : env) : list string :=
  if truthy (ZOTERO_USER_ID e) && truthy (ZOTERO_API_KEY e)
  then final_keywords set_iter (added_tags (zotero_tags e))
  else final_keywords set_iter [].

(** The candidates [search_arxiv] returns to [main]. *)
Definition retrieved (set_iter : list string -> list string) (e : env) : list paper :=
  collect (now_utc e - hours 36)
          (arxiv_client e (search_query (keywords_of set_iter e))).


(** ** Definitions used by the proofs and the concrete runs *)

(** A candidate used by the concrete checks below. *)
Definition paper0 : paper :=
  to_candidate (mk_result "INT8 Quantization for ViT on FPGA" "We quantize."
                  "http://arxiv.org/abs/2610.00001" ["A. Author"] 0).



(** What the code needs of [list(keywords)]: each inserted string listed
    exactly once. *)
Definition set_iter_ok (set_iter : list string -> list string) : Prop :=
  forall l, NoDup (set_iter l) /\ (forall x, In x (set_iter l) <-> In x l).

Definition is_delivery (ev : event) : bool :=
  match ev with SmtpDeliver _ _ => true | _ => false end.

Definition is_setup (ev : event) : bool :=
  match ev with ZoteroFetch | ArxivSearch _ => true | _ => false end.

(** The result of an action does not depend on the trace before it. *)
Definition res_indep {A} (m : M A) : Prop := forall tr tr', fst (m tr) = fst (m tr').

(** An action keeps a property of every event of the trace. *)
Definition keeps {A} (P : event -> Prop) (m : M A) : Prop :=
  forall tr, Forall P tr -> Forall P (snd (m tr)).

(** Scoring emits only Gemini calls and sleeps. *)
Definition scoring_event (ev : event) : Prop :=
  match ev with GeminiCall _ _ | Sleep _ => True | _ => False end.

Definition paper_xy : paper :=
  {| title := "TitleX"; abstract := "A"; url := "http://arxiv.org/abs/1";
     authors := "B"; score := Some (JNum 9); reason := Some (JStr "ReasonY") |}.

Definition res_A : arxiv_result := mk_result "A" "older" "http://arxiv.org/abs/A" ["X"] 100.
Definition res_B : arxiv_result := mk_result "B" "newer" "http://arxiv.org/abs/B" ["Y"] 200.

Definition reply (n : Z) : nat -> paper -> gen_outcome :=
  fun _ _ => GenText (Some (JObj [("score", JNum n); ("reason", JStr "r")])).

Definition env_with (key : option string) (rs : list arxiv_result)
    (g : nat -> paper -> gen_outcome) : env :=
  mk_env None None key [] (fun _ => rs) (hours 36) "2026-10-19" g.

(** Two candidates scored 8; B, submitted later, comes first from arXiv. *)
Definition hq8 : list paper :=
  [enrich (to_candidate res_B) (JNum 8) (JStr "r"); enrich (to_candidate res_A) (JNum 8) (JStr "r")].

(** The events of the scoring loop when it completes: per candidate, the
    Gemini call, the one-second back-off after a failed call, and the
    two-second pause. *)
Fixpoint paced_trace (g : nat -> paper -> gen_outcome) (i : nat) (cands : list paper)
    : list event :=
  match cands with
  | [] => []
  | p :: rest =>
      GeminiCall i (title p)
      :: ((match g i p with GenText (Some _) => [] | _ => [Sleep 1] end)
          ++ Sleep 2 :: paced_trace g (S i) rest)
  end.

(** The Zotero part of a run's trace. *)
Definition zotero_part (e : env) : list event :=
  if truthy (ZOTERO_USER_ID e) && truthy (ZOTERO_API_KEY e) then [ZoteroFetch] else [].

(** The mail a run sends after ranking [hq], if any. *)
Definition mail_part (e : env) (hq : list paper) : list event :=
  match py_sort_desc hq with
  | [] => []
  | _ :: _ =>
      [SmtpDeliver (subject (Z.of_nat (List.length (py_sort_desc hq))))
                   (render (today e) (py_sort_desc hq))]
  end.

(** Occurrences of a byte in a string. *)
Fixpoint count_char (c : ascii) (s : string) : nat :=
  match s with
  | EmptyString => O
  | String d rest => ((if Ascii.eqb c d then 1 else 0) + count_char c rest)%nat
  end.

(** The Gemini calls of a trace: call index and title. *)
Definition gemini_calls (tr : list event) : list (nat * string) :=
  flat_map (fun ev => match ev with GeminiCall i t => [(i, t)] | _ => [] end) tr.

(** The value of a string of decimal digits read left to right, starting
    from [a]. *)
Fixpoint dec_acc (a : Z) (s : string) : Z :=
  match s with
  | EmptyString => a
  | String c rest => dec_acc (a * 10 + (Z.of_nat (nat_of_ascii c) - 48)) rest
  end.

Definition is_digit (c : ascii) : bool :=
  Nat.leb 48 (nat_of_ascii c) && Nat.leb (nat_of_ascii c) 57.

(** The newline bytes one rendered paper adds: its four line ends and
    those inside its fields. *)
Definition paper_newlines (p : paper) : nat :=
  (4 + count_char (ascii_of_nat 10) (field (score p)) + count_char (ascii_of_nat 10) (title p)
     + count_char (ascii_of_nat 10) (field (reason p)) + count_char (ascii_of_nat 10) (url p))%nat.

(** ** Lemmas on the monad and the loop *)

Lemma ai_review_paper_ok g i p tr :
  exists t, ai_review_paper g i p tr = (Ok (review_of g i p), t).
Proof.
  unfold ai_review_paper, review_of, bind, emit, ret.
  destruct (g i p) as [|[v|]]; eexists; reflexivity.
Qed.

Lemma score_step_cases g i p tr :
  match dict_get (review_of g i p) "score" (JNum 0) with
  | None => fst (score_step g i p tr) = Exc AttributeError
  | Some s =>
      match py_ge s 7 with
      | None => fst (score_step g i p tr) = Exc TypeError
      | Some b =>
          fst (score_step g i p tr) =
          Ok (if b then enrich p s (reason_of (review_of g i p)) else p, b)
      end
  end.
Proof.
  unfold score_step, bind, lift, emit, ret, raise, reason_of. cbv beta.
  destruct (ai_review_paper_ok g i p tr) as [t ->].
  generalize (review_of g i p) as rv. intro rv.
  destruct (dict_get rv "score" (JNum 0)) as [s|] eqn:Hs; [|reflexivity].
  destruct (py_ge s 7) as [[|]|]; [|reflexivity|reflexivity].
  destruct (dict_get rv "reason" (JStr "N/A")) eqn:Hr; [reflexivity|].
  destruct rv; discriminate.
Qed.

Lemma review_loop_cons g i p rest tr :
  review_loop g i (p :: rest) tr =
  match score_step g i p tr with
  | (Ok st, t1) =>
      match review_loop g (S i) rest t1 with
      | (Ok tl, t2) => (Ok (fst st :: fst tl, if snd st then fst st :: snd tl else snd tl), t2)
      | (Exc e, t2) => (Exc e, t2)
      end
  | (Exc e, t1) => (Exc e, t1)
  end.
Proof.
  cbn [review_loop]. unfold bind at 1.
  destruct (score_step g i p tr) as [[st|e] t1]; [|reflexivity].
  unfold bind. destruct (review_loop g (S i) rest t1) as [[tl|e] t2]; reflexivity.
Qed.

Lemma review_loop_rel g i cands tr cs hq tr' :
  review_loop g i cands tr = (Ok (cs, hq), tr') -> loop_rel g i cands cs hq.
Proof.
  revert i tr cs hq tr'.
  induction cands as [|p rest IH]; intros i tr cs hq tr' H.
  - cbn in H. injection H as <- <- _. constructor.
  - rewrite review_loop_cons in H.
    pose proof (score_step_cases g i p tr) as Hc.
    destruct (score_step g i p tr) as [[st|e] t1] eqn:Est; [|discriminate].
    destruct (review_loop g (S i) rest t1) as [[tl|e] t2] eqn:El; [|discriminate].
    injection H as Hcs Hhq _.
    destruct tl as [cs' hq'].
    specialize (IH _ _ _ _ _ El).
    cbn [fst] in Hc.
    destruct (dict_get (review_of g i p) "score" (JNum 0)) as [s|] eqn:Hs; [|discriminate].
    destruct (py_ge s 7) as [[|]|] eqn:Hb; [| |discriminate];
      injection Hc as Hst; subst st; cbn in Hcs, Hhq; subst.
    + eapply lr_keep; eauto.
    + eapply lr_drop; eauto.
Qed.


Lemma loop_rel_length g i cands cs hq :
  loop_rel g i cands cs hq -> List.length cs = List.length cands.
Proof. induction 1; cbn; congruence. Qed.



(** ** C1 *)



(** ** C2 *)


(** ** C10 *)

Lemma loop_rel_frame g i cands cs hq :
  loop_rel g i cands cs hq ->
  forall k p p' s, nth_error cands k = Some p -> nth_error cs k = Some p' ->
    dict_get (review_of g (i + k)%nat p) "score" (JNum 0) = Some s ->
    py_ge s 7 = Some false -> p' = p.
Proof.
  induction 1 as [i|i p rest cs hq s Hs Hb Hr IH|i p rest cs hq s Hs Hb Hr IH];
    intros k q q' s' Hq Hq' Hs' Hb'.
  - destruct k; discriminate.
  - destruct k as [|k]; cbn in Hq, Hq'.
    + injection Hq as <-. injection Hq' as <-.
      rewrite Nat.add_0_r, Hs in Hs'. injection Hs' as <-. congruence.
    + apply (IH k q q' s'); auto.
      replace (S i + k)%nat with (i + S k)%nat by lia. exact Hs'.
  - destruct k as [|k]; cbn in Hq, Hq'.
    + congruence.
    + apply (IH k q q' s'); auto.
      replace (S i + k)%nat with (i + S k)%nat by lia. exact Hs'.
Qed.

(** C10.  When the scoring loop completes, the candidate list keeps its
    length, and every candidate whose score compares below 7 is the very
    record retrieval produced: no score or reason key is added to it. *)
Theorem C10_below_threshold_not_enriched g i cands tr cs hq tr' :
  review_loop g i cands tr = (Ok (cs, hq), tr') ->
  List.length cs = List.length cands /\
  forall k p p' s, nth_error cands k = Some p -> nth_error cs k = Some p' ->
    dict_get (review_of g (i + k)%nat p) "score" (JNum 0) = Some s ->
    py_ge s 7 = Some false -> p' = p.
Proof.
  intro H. pose proof (review_loop_rel _ _ _ _ _ _ _ H) as Hr.
  split; [exact (loop_rel_length _ _ _ _ _ Hr) | exact (loop_rel_frame _ _ _ _ _ Hr)].
Qed.

(** ** The sort: descending and stable *)









(** ** Sub-sequences *)






(** ** C3 *)


(** ** C4 *)

Lemma collect_filter y rs :
  collect y rs = map to_candidate (filter (fun r => Z.ltb y (r_published r)) rs).
Proof.
  induction rs as [|r rs IH]; cbn; [reflexivity|].
  destruct (Z.ltb y (r_published r)); cbn; rewrite IH; reflexivity.
Qed.

Lemma search_arxiv_result client now kws tr :
  exists tr', search_arxiv client now kws tr =
    (Ok (collect (now - hours 36) (client (search_query kws))), tr').
Proof. eexists. reflexivity. Qed.

(** C4.  [search_arxiv] keeps, in arXiv's order, exactly the results
    published strictly after the run instant minus 36 hours (in
    microseconds); a result published at the boundary or before it is
    dropped. *)
Theorem C4_window_36_hours client now kws tr :
  (exists tr', search_arxiv client now kws tr =
     (Ok (map to_candidate
            (filter (fun r => Z.ltb (now - 36 * 3600 * 1000000)%Z (r_published r))
                    (client (search_query kws)))), tr')) /\
  (forall r, fst (search_arxiv (fun _ => [r]) now kws tr) = Ok [to_candidate r] <->
             (now - 36 * 3600 * 1000000 < r_published r)%Z) /\
  (forall r, fst (search_arxiv (fun _ => [r]) now kws tr) = Ok [] <->
             (r_published r <= now - 36 * 3600 * 1000000)%Z).
Proof.
  split; [|split].
  - destruct (search_arxiv_result client now kws tr) as [t Ht].
    exists t. rewrite Ht, collect_filter. reflexivity.
  - intro r. destruct (search_arxiv_result (fun _ => [r]) now kws tr) as [t Ht].
    rewrite Ht. cbn [fst collect]. unfold hours.
    destruct (Z.ltb_spec (now - 36 * 3600 * 1000000) (r_published r)) as [Hlt|Hge]; split; intro H;
      try reflexivity; try lia; discriminate.
  - intro r. destruct (search_arxiv_result (fun _ => [r]) now kws tr) as [t Ht].
    rewrite Ht. cbn [fst collect]. unfold hours.
    destruct (Z.ltb_spec (now - 36 * 3600 * 1000000) (r_published r)) as [Hlt|Hge]; split; intro H;
      try reflexivity; try lia; discriminate.
Qed.

(** ** C5 *)

Lemma existsb_eqb_in x seen : existsb (String.eqb x) seen = true <-> In x seen.
Proof.
  rewrite existsb_exists. split.
  - intros (z & Hz & E). apply String.eqb_eq in E. subst. exact Hz.
  - intro H. exists x. split; [exact H|]. apply String.eqb_refl.
Qed.

Lemma first_seen_aux_in seen l x :
  In x (first_seen_aux seen l) <-> In x l /\ ~ In x seen.
Proof.
  revert seen. induction l as [|y l IH]; intro seen; cbn.
  - tauto.
  - destruct (existsb (String.eqb y) seen) eqn:E.
    + apply existsb_eqb_in in E. rewrite IH. split.
      * intros [H1 H2]. tauto.
      * intros [[<-|H1] H2]; [contradiction|tauto].
    + assert (Hy : ~ In y seen) by (rewrite <- existsb_eqb_in; congruence).
      cbn. rewrite IH. cbn. split.
      * intros [<-|[H1 H2]]; [tauto|tauto].
      * intros [[<-|H1] H2]; [tauto|].
        destruct (string_dec y x) as [<-|Hne]; [left; reflexivity|].
        right. split; [exact H1|]. intros [H3|H3]; [contradiction|contradiction].
Qed.

Lemma first_seen_aux_nodup seen l : NoDup (first_seen_aux seen l).
Proof.
  revert seen. induction l as [|y l IH]; intro seen; cbn; [constructor|].
  destruct (existsb (String.eqb y) seen); [apply IH|].
  constructor; [|apply IH].
  rewrite first_seen_aux_in. cbn. tauto.
Qed.

Lemma first_seen_ok : set_iter_ok first_seen.
Proof.
  intro l. split; [apply first_seen_aux_nodup|].
  intro x. unfold first_seen. rewrite first_seen_aux_in. cbn. tauto.
Qed.

(** C5, refuted: one ASCII Zotero tag equal to a fallback keyword appears
    twice, since the fallback list is appended without deduplication. *)
Lemma C5_counterexample :
  fst (get_keywords_from_zotero first_seen (Some "u") (Some "k") ["FPGA"] [])
    = Ok ["FPGA"; "FPGA"; "Quantization"; "Vision Transformer"; "Hardware Accelerator"] /\
  ~ NoDup (final_keywords first_seen (added_tags ["FPGA"])).
Proof.
  split; [reflexivity|].
  cbn. intro H. inversion H as [|x l Hx Hl]. apply Hx. left. reflexivity.
Qed.

Lemma firstn_in {A} (n : nat) (l : list A) x : In x (firstn n l) -> In x l.
Proof.
  revert l. induction n as [|n IH]; intros [|y l]; cbn; try tauto.
  intros [<-|H]; [left; reflexivity|right; apply IH; exact H].
Qed.

(** C5 (corrected).  The keywords are [list(S) + core_keywords] cut to 6,
    where [S] is the set of ASCII tags (empty when Zotero is not
    configured): no more than 6 keywords, each an ASCII tag or a fallback
    keyword, and the four fallback keywords are appended whole, without
    deduplication against the tags, whenever the set has at most two
    entries. *)
Theorem C5_keywords_set_then_fallback set_iter z_id z_key tags tr :
  set_iter_ok set_iter ->
  let added := if truthy z_id && truthy z_key then filter isascii tags else [] in
  let kws := firstn 6 (set_iter added ++ core_keywords) in
  (exists tr', get_keywords_from_zotero set_iter z_id z_key tags tr = (Ok kws, tr')) /\
  (List.length kws <= 6)%nat /\
  (forall x, In x kws -> (In x tags /\ isascii x = true) \/ In x core_keywords) /\
  ((List.length (set_iter added) <= 2)%nat -> kws = (set_iter added ++ core_keywords)%list).
Proof.
  intros Hok added kws. split; [|split; [|split]].
  - unfold get_keywords_from_zotero, kws, added, final_keywords, added_tags, bind, emit, ret.
    destruct (truthy z_id && truthy z_key); eexists; reflexivity.
  - unfold kws. rewrite length_firstn. lia.
  - intros x Hx. apply firstn_in in Hx. apply in_app_or in Hx.
    destruct Hx as [Hx|Hx]; [left|right; exact Hx].
    apply (proj2 (Hok added) x) in Hx. unfold added in Hx.
    destruct (truthy z_id && truthy z_key); [|contradiction].
    apply filter_In in Hx. exact Hx.
  - intro Hl. unfold kws. apply firstn_all2. rewrite length_app. cbn. lia.
Qed.

(** ** Traces of the run *)

Lemma bind_res_indep {A B} (m : M A) (k : A -> M B) :
  res_indep m -> (forall a, res_indep (k a)) -> res_indep (bind m k).
Proof.
  intros Hm Hk tr tr'. unfold bind.
  pose proof (Hm tr tr') as H.
  destruct (m tr) as [[a|e] t], (m tr') as [[a'|e'] t']; cbn in *; try discriminate.
  - injection H as <-. apply Hk.
  - injection H as <-. reflexivity.
Qed.

Lemma bind_keeps {A B} P (m : M A) (k : A -> M B) :
  keeps P m -> (forall a, keeps P (k a)) -> keeps P (bind m k).
Proof.
  intros Hm Hk tr Htr. unfold bind.
  pose proof (Hm tr Htr) as H.
  destruct (m tr) as [[a|e] t]; cbn in *; [apply Hk|]; exact H.
Qed.

Lemma ret_res_indep {A} (a : A) : res_indep (ret a).
Proof. intros tr tr'. reflexivity. Qed.

Lemma ret_keeps {A} P (a : A) : keeps P (ret a).
Proof. intros tr H. exact H. Qed.

Lemma lift_res_indep {A} (o : option A) e : res_indep (lift o e).
Proof. intros tr tr'. destruct o; reflexivity. Qed.

Lemma lift_keeps {A} P (o : option A) e : keeps P (lift o e).
Proof. intros tr H. destruct o; exact H. Qed.

Lemma emit_res_indep ev : res_indep (emit ev).
Proof. intros tr tr'. reflexivity. Qed.

Lemma emit_keeps (P : event -> Prop) ev : P ev -> keeps P (emit ev).
Proof. intros Hev tr H. cbn. apply Forall_app. split; [exact H|]. constructor; [exact Hev|constructor]. Qed.

Create HintDb trace.

#[local] Hint Resolve bind_res_indep bind_keeps ret_res_indep ret_keeps lift_res_indep
  lift_keeps emit_res_indep emit_keeps : trace.

Lemma score_step_trace g i p :
  res_indep (score_step g i p) /\
  (forall P : event -> Prop, (forall ev, scoring_event ev -> P ev) -> keeps P (score_step g i p)).
Proof.
  split.
  - unfold score_step, ai_review_paper.
    apply bind_res_indep; [apply bind_res_indep; [auto with trace|]|].
    + intros _. destruct (g i p) as [|[v|]]; auto with trace.
    + intro review. apply bind_res_indep; [auto with trace|intro s].
      apply bind_res_indep; [auto with trace|intros [|]]; auto with trace.
  - intros P HP. unfold score_step, ai_review_paper.
    apply bind_keeps; [apply bind_keeps; [apply emit_keeps; apply HP; exact I|]|].
    + intros _. destruct (g i p) as [|[v|]];
        auto 6 with trace; apply bind_keeps; auto with trace; apply emit_keeps, HP; exact I.
    + intro review. apply bind_keeps; [auto with trace|intro s].
      apply bind_keeps; [auto with trace|intros [|]].
      * apply bind_keeps; [auto with trace|intro r].
        apply bind_keeps; [apply emit_keeps, HP; exact I|auto with trace].
      * apply bind_keeps; [apply emit_keeps, HP; exact I|auto with trace].
Qed.

Lemma review_loop_trace g i cands :
  res_indep (review_loop g i cands) /\
  (forall P : event -> Prop, (forall ev, scoring_event ev -> P ev) -> keeps P (review_loop g i cands)).
Proof.
  revert i. induction cands as [|p rest IH]; intro i; cbn [review_loop].
  - split; [auto with trace|intros; auto with trace].
  - destruct (score_step_trace g i p) as [Hs1 Hs2].
    destruct (IH (S i)) as [Hl1 Hl2]. split.
    + apply bind_res_indep; [exact Hs1|intro st].
      apply bind_res_indep; [exact Hl1|auto with trace].
    + intros P HP. apply bind_keeps; [exact (Hs2 P HP)|intro st].
      apply bind_keeps; [exact (Hl2 P HP)|auto with trace].
Qed.

(** [main] up to the end of [search_arxiv]. *)
Lemma main_prefix set_iter e :
  truthy (GEMINI_API_KEY e) = true ->
  exists t1, Forall (fun ev => is_setup ev = true) t1 /\
  run set_iter e =
    match retrieved set_iter e with
    | [] => (Ok tt, t1)
    | _ :: _ =>
        bind (review_loop (gemini e) 0 (retrieved set_iter e))
          (fun loop =>
             let high_quality_papers := py_sort_desc (snd loop) in
             match high_quality_papers with
             | [] => ret tt
             | _ :: _ =>
                 emit (SmtpDeliver (subject (Z.of_nat (List.length high_quality_papers)))
                                   (render (today e) high_quality_papers))
             end) t1
    end.
Proof.
  intro Hk. unfold run, main. rewrite Hk. cbn [negb].
  unfold retrieved, keywords_of, get_keywords_from_zotero.
  destruct (truthy (ZOTERO_USER_ID e) && truthy (ZOTERO_API_KEY e)).
  - eexists. split; cycle 1.
    + unfold search_arxiv. cbv [bind emit ret]. cbv beta iota zeta.
      destruct (collect _ _); reflexivity.
    + repeat constructor.
  - eexists. split; cycle 1.
    + unfold search_arxiv. cbv [bind emit ret]. cbv beta iota zeta.
      destruct (collect _ _); reflexivity.
    + repeat constructor.
Qed.

(** ** C6 *)

(** C6.  When retrieval returns no candidate the run ends normally having
    contacted only Zotero and arXiv (no Gemini call, no mail); and whenever
    the scoring loop leaves [high_quality_papers] empty, no mail is sent. *)
Theorem C6_empty_means_no_delivery set_iter e :
  (retrieved set_iter e = [] ->
     fst (run set_iter e) = Ok tt /\
     Forall (fun ev => is_setup ev = true) (snd (run set_iter e))) /\
  (forall cs, fst (review_loop (gemini e) 0 (retrieved set_iter e) []) = Ok (cs, []) ->
     Forall (fun ev => is_delivery ev = false) (snd (run set_iter e))).
Proof.
  destruct (truthy (GEMINI_API_KEY e)) eqn:Hk.
  2:{ assert (Hr : run set_iter e = (Ok tt, [])) by (unfold run, main; rewrite Hk; reflexivity).
      rewrite Hr. split; [intros _; split; [reflexivity|constructor]|intros; constructor]. }
  destruct (main_prefix set_iter e Hk) as (t1 & Ht1 & Hrun).
  assert (Hnd : Forall (fun ev => is_delivery ev = false) t1).
  { eapply Forall_impl; [|exact Ht1]. intros [] H; cbn in *; congruence. }
  rewrite Hrun. split.
  - intro He. rewrite He. split; [reflexivity|exact Ht1].
  - intros cs Hl. destruct (retrieved set_iter e) as [|c rest] eqn:Er; [exact Hnd|].
    destruct (review_loop_trace (gemini e) 0 (c :: rest)) as [Hi Hkp].
    unfold bind.
    pose proof (Hi t1 []) as Hit. rewrite Hl in Hit.
    pose proof (Hkp (fun ev => is_delivery ev = false)) as Hk2.
    specialize (Hk2 ltac:(intros [] H; cbn in *; tauto) t1 Hnd).
    destruct (review_loop (gemini e) 0 (c :: rest) t1) as [r t2]. cbn in Hit, Hk2.
    subst r. exact Hk2.
Qed.

(** ** C7 *)

(** C7.  Without a Gemini key the run returns at once: the trace is empty,
    so neither Zotero, arXiv, Gemini nor the mail server is contacted. *)
Theorem C7_missing_key_contacts_nothing set_iter e :
  GEMINI_API_KEY e = None \/ GEMINI_API_KEY e = Some "" ->
  run set_iter e = (Ok tt, []).
Proof.
  intro H. unfold run, main.
  destruct H as [H|H]; rewrite H; reflexivity.
Qed.

(** ** C8 *)

Lemma str_append_assoc (a b c : string) : a ++ (b ++ c) = (a ++ b) ++ c.
Proof. induction a as [|x a IH]; cbn; [reflexivity|rewrite IH; reflexivity]. Qed.

Lemma str_append_nil (a : string) : a ++ "" = a.
Proof. induction a as [|x a IH]; cbn; [reflexivity|rewrite IH; reflexivity]. Qed.

Lemma concat_empty_cons (x : string) l :
  String.concat "" (x :: l) = x ++ String.concat "" l.
Proof. destruct l; cbn; [symmetry; apply str_append_nil|reflexivity]. Qed.

(** C8 (corrected).  The mail body is the summary line carrying the count
    and the date, an empty line, then for each ranked paper in order the
    lines "【score分】 title", "推荐理由: reason", "链接: url" and a line of
    40 dashes: the score shares its line with the title, and the reason
    comes after the title. *)
Theorem C8_report_layout date hq :
  render date hq =
  ("Gemini 为您精选了 " ++ str_int (Z.of_nat (List.length hq))
   ++ " 篇 FPGA/AI 硬件相关论文 (" ++ date ++ ")：" ++ nl ++ nl)
  ++ String.concat ""
       (map (fun p => "【" ++ field (score p) ++ "分】 " ++ title p ++ nl
                      ++ "推荐理由: " ++ field (reason p) ++ nl
                      ++ "链接: " ++ url p ++ nl
                      ++ repeat_str "-" 40 ++ nl) hq).
Proof.
  unfold render. fold (header (Z.of_nat (List.length hq)) date).
  generalize (header (Z.of_nat (List.length hq)) date) as acc.
  induction hq as [|p hq IH]; intro acc; cbn [fold_left map].
  - cbn. symmetry. apply str_append_nil.
  - rewrite IH, concat_empty_cons. unfold render_paper.
    rewrite !str_append_assoc. reflexivity.
Qed.

(** C8, refuted: in the rendered block the title comes before the
    reason. *)
Lemma C8_counterexample :
  String.index 0 "TitleX" (render "2026-10-19" [paper_xy]) = Some 84%nat /\
  String.index 0 "ReasonY" (render "2026-10-19" [paper_xy]) = Some 105%nat.
Proof. split; vm_compute; reflexivity. Qed.

(** ** C9 *)




(** ** Concrete runs exercising the theorems *)




Lemma C5_witness :
  (List.length (final_keywords first_seen (added_tags ["FPGA"; "量化"; "ViT"])) <= 6)%nat /\
  (forall x, In x (final_keywords first_seen (added_tags ["FPGA"; "量化"; "ViT"])) ->
     (In x ["FPGA"; "量化"; "ViT"] /\ isascii x = true) \/ In x core_keywords).
Proof.
  destruct (C5_keywords_set_then_fallback first_seen (Some "u") (Some "k")
              ["FPGA"; "量化"; "ViT"] [] first_seen_ok) as (_ & H1 & H2 & _).
  split; [exact H1|exact H2].
Defined.

Lemma C6_witness :
  (fst (run first_seen (env_with (Some "g") [] (reply 9))) = Ok tt) /\
  Forall (fun ev => is_delivery ev = false)
         (snd (run first_seen (env_with (Some "g") [res_A] (reply 3)))).
Proof.
  split.
  - exact (proj1 (proj1 (C6_empty_means_no_delivery first_seen (env_with (Some "g") [] (reply 9)))
                        eq_refl)).
  - exact (proj2 (C6_empty_means_no_delivery first_seen (env_with (Some "g") [res_A] (reply 3)))
                 [to_candidate res_A] eq_refl).
Defined.

Lemma C7_witness : run first_seen (env_with None [res_A] (reply 9)) = (Ok tt, []).
Proof. apply C7_missing_key_contacts_nothing. left. reflexivity. Defined.


Lemma C10_witness :
  List.length [paper0] = List.length [paper0] /\
  paper0 = paper0.
Proof.
  destruct (C10_below_threshold_not_enriched (reply 3) O [paper0] [] [paper0] []
              [GeminiCall 0 (title paper0); Sleep 2] eq_refl) as [H1 H2].
  split; [exact H1|].
  exact (H2 O paper0 paper0 (JNum 3) eq_refl eq_refl eq_refl eq_refl).
Defined.

(** * Further properties of main.py *)

(** ** Pacing of the scoring loop *)

Lemma score_step_ok_trace g i p tr st tr' :
  score_step g i p tr = (Ok st, tr') ->
  tr' = (tr ++ GeminiCall i (title p)
             :: ((match g i p with GenText (Some _) => [] | _ => [Sleep 1] end)
                 ++ [Sleep 2]))%list.
Proof.
  unfold score_step, ai_review_paper, bind, emit, lift, ret, raise. cbv beta.
  destruct (g i p) as [|[v|]]; cbn.
  - intro H. injection H as _ <-. rewrite <- !app_assoc. reflexivity.
  - destruct (dict_get v "score" (JNum 0)) as [s|]; [|discriminate].
    destruct (py_ge s 7) as [[|]|]; [|intro H; injection H as _ <-|discriminate].
    + destruct (dict_get v "reason" (JStr "N/A")); [|discriminate].
      intro H. injection H as _ <-. rewrite <- !app_assoc. reflexivity.
    + rewrite <- !app_assoc. reflexivity.
  - intro H. injection H as _ <-. rewrite <- !app_assoc. reflexivity.
Qed.

Lemma review_loop_paced g i cands tr r tr' :
  review_loop g i cands tr = (Ok r, tr') ->
  tr' = (tr ++ paced_trace g i cands)%list.
Proof.
  revert i tr r tr'. induction cands as [|p rest IH]; intros i tr r tr' H.
  - cbn in H. injection H as _ <-. rewrite app_nil_r. reflexivity.
  - rewrite review_loop_cons in H.
    destruct (score_step g i p tr) as [[st|x] t1] eqn:Es; [|discriminate].
    destruct (review_loop g (S i) rest t1) as [[tl|x] t2] eqn:El; [|discriminate].
    injection H as _ <-.
    rewrite (IH _ _ _ _ El), (score_step_ok_trace _ _ _ _ _ _ Es).
    cbn [paced_trace]. rewrite <- !app_assoc. cbn. rewrite <- app_assoc. reflexivity.
Qed.

(** X1.  A completed scoring loop calls Gemini once per candidate, in
    order, and after every call pauses two seconds before the next one,
    with an extra one-second back-off after a failed call. *)
Theorem X1_loop_paced g i cands tr r tr' :
  review_loop g i cands tr = (Ok r, tr') ->
  tr' = (tr ++ paced_trace g i cands)%list.
Proof. exact (review_loop_paced g i cands tr r tr'). Qed.

Lemma X1_witness :
  snd (review_loop (fun j _ => if Nat.eqb j 0 then GenRaises else reply 8 j paper0)
                   0 [paper0; to_candidate res_A] [])
  = [GeminiCall 0 (title paper0); Sleep 1; Sleep 2; GeminiCall 1 "A"; Sleep 2].
Proof.
  exact (X1_loop_paced (fun j _ => if Nat.eqb j 0 then GenRaises else reply 8 j paper0)
           O [paper0; to_candidate res_A] [] _ _ eq_refl).
Defined.

(** ** The whole run *)

Lemma run_cases set_iter e :
  truthy (GEMINI_API_KEY e) = true ->
  run set_iter e =
  match retrieved set_iter e with
  | [] => (Ok tt, zotero_part e ++ [ArxivSearch (search_query (keywords_of set_iter e))])
  | _ :: _ =>
      match review_loop (gemini e) 0 (retrieved set_iter e)
              (zotero_part e ++ [ArxivSearch (search_query (keywords_of set_iter e))]) with
      | (Ok (cs, hq), t2) => (Ok tt, t2 ++ mail_part e hq)
      | (Exc x, t2) => (Exc x, t2)
      end
  end%list.
Proof.
  intro Hk. unfold run, main. rewrite Hk. cbn [negb].
  unfold retrieved, keywords_of, zotero_part, get_keywords_from_zotero, search_arxiv.
  destruct (truthy (ZOTERO_USER_ID e) && truthy (ZOTERO_API_KEY e));
    cbv [bind emit ret]; cbv beta iota zeta;
    (destruct (collect _ _) as [|c rest]; [reflexivity|]);
    (destruct (review_loop _ _ _ _) as [[[cs hq]|x] t2]; [|reflexivity]);
    unfold mail_part; cbn [fst snd]; destruct (py_sort_desc hq);
    try (rewrite app_nil_r); reflexivity.
Qed.

Lemma not_delivery_scoring ev : scoring_event ev -> is_delivery ev = false.
Proof. destruct ev; cbn; tauto. Qed.

Lemma zotero_search_no_delivery e q :
  Forall (fun ev => is_delivery ev = false) (zotero_part e ++ [ArxivSearch q])%list.
Proof.
  unfold zotero_part. destruct (_ && _); repeat constructor.
Qed.

(** X2.  The stages run one after the other: a run with a Gemini key whose
    scoring loop completes contacts Zotero (only if both Zotero settings are
    set), then arXiv once with the query built from the keywords, then
    Gemini once per retrieved candidate with the pauses of the loop, then
    sends at most one mail, with the ranked papers, and only if some paper
    scored at least 7. *)
Theorem X2_run_trace set_iter e cs hq :
  truthy (GEMINI_API_KEY e) = true ->
  fst (review_loop (gemini e) 0 (retrieved set_iter e) []) = Ok (cs, hq) ->
  run set_iter e =
    (Ok tt, zotero_part e ++ [ArxivSearch (search_query (keywords_of set_iter e))]
            ++ paced_trace (gemini e) 0 (retrieved set_iter e) ++ mail_part e hq)%list.
Proof.
  intros Hk Hl. rewrite (run_cases set_iter e Hk).
  destruct (retrieved set_iter e) as [|c rest] eqn:Er.
  - cbn in Hl. injection Hl as <- <-. cbn. rewrite ?app_nil_r. reflexivity.
  - destruct (review_loop_trace (gemini e) 0 (c :: rest)) as [Hi _].
    set (t1 := (zotero_part e ++ [ArxivSearch (search_query (keywords_of set_iter e))])%list).
    pose proof (Hi t1 []) as Hit. rewrite Hl in Hit.
    destruct (review_loop (gemini e) 0 (c :: rest) t1) as [r t2] eqn:El.
    cbn in Hit. subst r.
    rewrite (review_loop_paced _ _ _ _ _ _ El). unfold t1. rewrite <- !app_assoc. reflexivity.
Qed.

Lemma X2_witness :
  run first_seen (env_with (Some "g") [res_B; res_A] (reply 8)) =
    (Ok tt, [ArxivSearch (search_query core_keywords);
             GeminiCall 0 "B"; Sleep 2; GeminiCall 1 "A"; Sleep 2;
             SmtpDeliver (subject 2) (render "2026-10-19" hq8)]).
Proof.
  rewrite (X2_run_trace first_seen (env_with (Some "g") [res_B; res_A] (reply 8)) hq8 hq8
             eq_refl eq_refl).
  reflexivity.
Defined.

Lemma filter_none {A} (f : A -> bool) l : Forall (fun x => f x = false) l -> filter f l = [].
Proof. induction 1 as [|x l Hx _ IH]; cbn; [reflexivity|rewrite Hx; exact IH]. Qed.

(** X3.  A run sends at most one mail, and a mail it sends carries the
    papers kept by the scoring loop, sorted, with their count in the
    subject. *)
Theorem X3_single_mail set_iter e :
  (List.length (filter is_delivery (snd (run set_iter e))) <= 1)%nat /\
  (forall s b, In (SmtpDeliver s b) (snd (run set_iter e)) ->
     exists cs hq, fst (review_loop (gemini e) 0 (retrieved set_iter e) []) = Ok (cs, hq) /\
       py_sort_desc hq <> [] /\
       s = subject (Z.of_nat (List.length (py_sort_desc hq))) /\
       b = render (today e) (py_sort_desc hq)).
Proof.
  destruct (truthy (GEMINI_API_KEY e)) eqn:Hk.
  2:{ assert (Hr : run set_iter e = (Ok tt, [])) by (unfold run, main; rewrite Hk; reflexivity).
      rewrite Hr. split; [cbn; lia|intros s b []]. }
  rewrite (run_cases set_iter e Hk).
  destruct (retrieved set_iter e) as [|c rest] eqn:Er.
  { pose proof (zotero_search_no_delivery e (search_query (keywords_of set_iter e))) as H0.
    split.
    - cbn [snd]. rewrite (filter_none _ _ H0). cbn. lia.
    - intros s b Hin. cbn [snd] in Hin. rewrite Forall_forall in H0.
      specialize (H0 _ Hin). discriminate. }
  destruct (review_loop_trace (gemini e) 0 (c :: rest)) as [Hi Hkp].
  set (t1 := (zotero_part e ++ [ArxivSearch (search_query (keywords_of set_iter e))])%list).
  pose proof (Hkp (fun ev => is_delivery ev = false) not_delivery_scoring t1
                  (zotero_search_no_delivery _ _)) as Hnd.
  pose proof (Hi t1 []) as Hit.
  destruct (review_loop (gemini e) 0 (c :: rest) t1) as [[[cs hq]|x] t2] eqn:El;
    cbn [snd fst] in Hnd, Hit |- *.
  - assert (Hf : filter is_delivery t2 = []).
    { exact (filter_none _ _ Hnd). }
    split.
    + rewrite filter_app, Hf. unfold mail_part. destruct (py_sort_desc hq); cbn; lia.
    + intros s b Hin. apply in_app_or in Hin. destruct Hin as [Hin|Hin].
      * rewrite Forall_forall in Hnd. specialize (Hnd _ Hin). discriminate.
      * unfold mail_part in Hin. destruct (py_sort_desc hq) as [|q l] eqn:Hs; [contradiction|].
        destruct Hin as [Hin|[]]. injection Hin as <- <-.
        exists cs, hq. split; [symmetry; exact Hit|]. rewrite Hs.
        split; [discriminate|split; reflexivity].
  - assert (Hf : filter is_delivery t2 = []).
    { exact (filter_none _ _ Hnd). }
    split; [rewrite Hf; cbn; lia|].
    intros s b Hin. rewrite Forall_forall in Hnd. specialize (Hnd _ Hin). discriminate.
Qed.

Lemma X3_witness :
  (List.length (filter is_delivery
     (snd (run first_seen (env_with (Some "g") [res_B; res_A] (reply 8))))) <= 1)%nat /\
  exists cs hq,
    fst (review_loop (reply 8) 0
           (retrieved first_seen (env_with (Some "g") [res_B; res_A] (reply 8))) [])
      = Ok (cs, hq) /\
    py_sort_desc hq <> [] /\
    subject 2 = subject (Z.of_nat (List.length (py_sort_desc hq))) /\
    render "2026-10-19" hq8 = render "2026-10-19" (py_sort_desc hq).
Proof.
  destruct (X3_single_mail first_seen (env_with (Some "g") [res_B; res_A] (reply 8))) as [H1 H2].
  split; [exact H1|].
  apply H2. vm_compute. right. right. right. right. right. left. reflexivity.
Defined.





(** ** Keywords *)

(** X5.  The search always uses between 4 and 6 keywords: exactly
    min(6, |S| + 4) for the set S of ASCII Zotero tags, so the query is
    never empty. *)
Theorem X5_keyword_count set_iter e :
  List.length (keywords_of set_iter e)
    = Nat.min 6 (List.length (set_iter (if truthy (ZOTERO_USER_ID e) && truthy (ZOTERO_API_KEY e)
                                        then added_tags (zotero_tags e) else [])) + 4) /\
  (4 <= List.length (keywords_of set_iter e) <= 6)%nat.
Proof.
  unfold keywords_of, final_keywords.
  destruct (_ && _); rewrite length_firstn, length_app;
    change (List.length core_keywords) with 4%nat; lia.
Qed.

(** X6.  Every keyword sent to arXiv is ASCII: non-ASCII Zotero tags never
    reach the query. *)
Theorem X6_keywords_ascii set_iter e :
  set_iter_ok set_iter ->
  Forall (fun k => isascii k = true) (keywords_of set_iter e).
Proof.
  intro Hok. apply Forall_forall. intros k Hk.
  unfold keywords_of, final_keywords in Hk.
  destruct (_ && _); apply firstn_in, in_app_or in Hk; destruct Hk as [Hk|Hk].
  - apply (proj1 (proj2 (Hok _) k)) in Hk.
    unfold added_tags in Hk. apply filter_In in Hk. exact (proj2 Hk).
  - cbn in Hk. repeat destruct Hk as [<-|Hk]; try reflexivity. contradiction.
  - apply (proj1 (proj2 (Hok _) k)) in Hk. contradiction.
  - cbn in Hk. repeat destruct Hk as [<-|Hk]; try reflexivity. contradiction.
Qed.

Lemma X6_witness :
  Forall (fun k => isascii k = true)
    (keywords_of first_seen (mk_env (Some "u") (Some "k") (Some "g") ["量化"; "ViT"]
                               (fun _ => []) 0 "2026-10-19" (reply 9))).
Proof. apply X6_keywords_ascii. exact first_seen_ok. Defined.

Lemma scoring_not_zotero ev : scoring_event ev -> ev <> ZoteroFetch.
Proof. destruct ev; cbn; try tauto; discriminate. Qed.

(** X7.  When a Zotero setting is missing, Zotero is never contacted and
    the search uses exactly the four fallback keywords. *)
Theorem X7_no_zotero_fallback set_iter e :
  set_iter_ok set_iter ->
  truthy (ZOTERO_USER_ID e) && truthy (ZOTERO_API_KEY e) = false ->
  keywords_of set_iter e = core_keywords /\
  Forall (fun ev => ev <> ZoteroFetch) (snd (run set_iter e)).
Proof.
  intros Hok Hz. split.
  - unfold keywords_of, final_keywords. rewrite Hz.
    destruct (set_iter []) as [|y l] eqn:E; [reflexivity|].
    exfalso. apply (proj1 (proj2 (Hok []) y)). rewrite E. left. reflexivity.
  - destruct (truthy (GEMINI_API_KEY e)) eqn:Hk.
    2:{ assert (Hr : run set_iter e = (Ok tt, [])) by (unfold run, main; rewrite Hk; reflexivity).
        rewrite Hr. constructor. }
    assert (H0 : Forall (fun ev => ev <> ZoteroFetch)
                   (zotero_part e ++ [ArxivSearch (search_query (keywords_of set_iter e))])%list).
    { unfold zotero_part. rewrite Hz. repeat constructor. discriminate. }
    rewrite (run_cases set_iter e Hk).
    destruct (retrieved set_iter e) as [|c rest]; [exact H0|].
    destruct (review_loop_trace (gemini e) 0 (c :: rest)) as [_ Hkp].
    pose proof (Hkp (fun ev => ev <> ZoteroFetch) scoring_not_zotero _ H0) as H1.
    destruct (review_loop (gemini e) 0 (c :: rest) _) as [[[cs hq]|y] t2];
      cbn [snd] in H1 |- *; [|exact H1].
    apply Forall_app. split; [exact H1|].
    unfold mail_part. destruct (py_sort_desc hq); repeat constructor. discriminate.
Qed.

Lemma X7_witness :
  keywords_of first_seen (env_with (Some "g") [res_A] (reply 9)) = core_keywords.
Proof.
  exact (proj1 (X7_no_zotero_fallback first_seen (env_with (Some "g") [res_A] (reply 9))
                  first_seen_ok eq_refl)).
Defined.

(** ** Counting bytes *)

Lemma count_char_app c s t :
  count_char c (s ++ t) = (count_char c s + count_char c t)%nat.
Proof. induction s as [|d s IH]; cbn; [reflexivity|rewrite IH; lia]. Qed.

Lemma list_sum_cons a l : list_sum (a :: l) = (a + list_sum l)%nat.
Proof. reflexivity. Qed.

Lemma count_char_join c sep xs :
  count_char c (join sep xs)
  = (list_sum (map (count_char c) xs) + (List.length xs - 1) * count_char c sep)%nat.
Proof.
  induction xs as [|x [|y xs] IH]; [reflexivity|cbn; lia|].
  change (join sep (x :: y :: xs)) with (x ++ sep ++ join sep (y :: xs)).
  rewrite !count_char_app, IH. cbn [map List.length]. rewrite !list_sum_cons. lia.
Qed.

(** X8.  The query quotes each keyword with one pair of double quotes and
    escapes nothing: it holds exactly two double quotes per keyword plus
    those inside the keywords themselves. *)
Theorem X8_query_quotes kws :
  count_char "034"%char (search_query kws)
  = (2 * List.length kws + list_sum (map (count_char "034"%char) kws))%nat.
Proof.
  unfold search_query. rewrite !count_char_app, count_char_join.
  rewrite map_map. cbn [count_char Ascii.eqb Bool.eqb]. rewrite Nat.mul_0_r, Nat.add_0_r.
  assert (H : forall l : list string,
    list_sum (map (fun k => count_char "034"%char ("abs:" ++ dq ++ k ++ dq)) l)
    = (2 * List.length l + list_sum (map (count_char "034"%char) l))%nat).
  { induction l as [|k l IH]; [reflexivity|].
    cbn [map List.length]. rewrite !list_sum_cons, IH, !count_char_app. cbn. lia. }
  rewrite H. lia.
Qed.

Lemma join_contains sep xs x :
  In x xs -> exists a b, join sep xs = a ++ x ++ b.
Proof.
  induction xs as [|y [|z xs] IH]; intros Hx; [contradiction| |].
  - destruct Hx as [<-|[]]. exists "", "". cbn. rewrite str_append_nil. reflexivity.
  - destruct Hx as [<-|Hx].
    + exists "", (sep ++ join sep (z :: xs)). reflexivity.
    + destruct (IH Hx) as [a [b Hab]]. exists (y ++ sep ++ a), b.
      change (join sep (y :: z :: xs)) with (y ++ sep ++ join sep (z :: xs)).
      rewrite Hab, !str_append_assoc. reflexivity.
Qed.

(** X9.  Every keyword appears in the query as abs:"k" inside the
    parenthesised disjunction, which is followed by the category filter. *)
Theorem X9_query_mentions kws k :
  In k kws ->
  exists a b, search_query kws = "(" ++ a ++ "abs:" ++ dq ++ k ++ dq ++ b ++ ") AND cat:cs.*".
Proof.
  intro Hk. unfold search_query.
  destruct (join_contains " OR " (map (fun k => "abs:" ++ dq ++ k ++ dq) kws)
              ("abs:" ++ dq ++ k ++ dq)) as [a [b Hab]].
  { apply in_map_iff. exists k. split; [reflexivity|exact Hk]. }
  exists a, b. rewrite Hab, !str_append_assoc. reflexivity.
Qed.

Lemma X9_witness :
  exists a b, search_query core_keywords
    = "(" ++ a ++ "abs:" ++ dq ++ "Vision Transformer" ++ dq ++ b ++ ") AND cat:cs.*".
Proof. apply X9_query_mentions. cbn. tauto. Defined.

(** X10.  The authors field joins the first three author names with ", ":
    its commas are those of the names plus one per separator, so at most
    two when the names have none. *)
Theorem X10_authors_commas r :
  count_char ","%char (authors (to_candidate r))
  = (list_sum (map (count_char ","%char) (firstn 3 (r_author_names r)))
     + (Nat.min 3 (List.length (r_author_names r)) - 1))%nat.
Proof.
  cbn [authors to_candidate]. rewrite count_char_join, length_firstn. cbn. lia.
Qed.

Lemma count_newline_replace s :
  count_char (ascii_of_nat 10) (replace_newlines s) = O /\
  String.length (replace_newlines s) = String.length s.
Proof.
  induction s as [|c s [IH1 IH2]]; [split; reflexivity|].
  cbn [replace_newlines count_char String.length]. rewrite IH1, IH2. split; [|reflexivity].
  destruct (Ascii.eqb c (ascii_of_nat 10)) eqn:E; [reflexivity|].
  rewrite Ascii.eqb_sym, E. reflexivity.
Qed.

(** X11.  A candidate's abstract holds no newline byte and is as long as
    the arXiv summary: each newline became one space. *)
Theorem X11_abstract_one_line r :
  count_char (ascii_of_nat 10) (abstract (to_candidate r)) = O /\
  String.length (abstract (to_candidate r)) = String.length (r_summary r).
Proof. exact (count_newline_replace (r_summary r)). Qed.

Lemma insert_desc_perm x l : Permutation (insert_desc x l) (x :: l).
Proof.
  induction l as [|y l IH]; cbn; [reflexivity|].
  destruct (Z.ltb (sort_key y) (sort_key x)); [reflexivity|].
  rewrite IH. apply perm_swap.
Qed.

(** X12.  Ranking neither drops nor duplicates a paper: the sorted list is
    a permutation of [high_quality_papers]. *)
Theorem X12_sort_permutation hq : Permutation (py_sort_desc hq) hq.
Proof.
  unfold py_sort_desc.
  assert (H : forall acc, Permutation (fold_left (fun acc x => insert_desc x acc) hq acc)
                                      (rev hq ++ acc)%list).
  { induction hq as [|x hq IH]; intro acc; [reflexivity|].
    cbn [fold_left]. rewrite IH, insert_desc_perm. cbn [rev]. rewrite <- app_assoc.
    reflexivity. }
  rewrite H, app_nil_r. symmetry. apply Permutation_rev.
Qed.

Lemma dec_acc_app a s t : dec_acc a (s ++ t) = dec_acc (dec_acc a s) t.
Proof. revert a. induction s as [|c s IH]; intro a; [reflexivity|apply IH]. Qed.

Lemma digits_aux_app f n acc : digits_aux f n acc = digits_aux f n "" ++ acc.
Proof.
  revert n acc. induction f as [|f IH]; intros n acc; [reflexivity|].
  cbn [digits_aux]. destruct (Z.ltb n 10); [reflexivity|].
  rewrite (IH _ (String _ acc)), (IH _ (String _ "")), <- str_append_assoc. reflexivity.
Qed.

Lemma digit_byte m :
  0 <= m < 10 -> Z.of_nat (nat_of_ascii (ascii_of_nat (48 + Z.to_nat m))) - 48 = m.
Proof.
  intro Hm. rewrite nat_ascii_embedding by lia. lia.
Qed.

Lemma digits_aux_value f n :
  0 <= n < 10 ^ Z.of_nat f -> dec_acc 0 (digits_aux f n "") = n.
Proof.
  revert n. induction f as [|f IH]; intros n Hn.
  - cbn in Hn. cbn. lia.
  - cbn [digits_aux]. destruct (Z.ltb n 10) eqn:E.
    + apply Z.ltb_lt in E. cbn [dec_acc].
      rewrite digit_byte by (apply Z.mod_pos_bound; lia).
      rewrite Z.mod_small by lia. lia.
    + apply Z.ltb_ge in E.
      rewrite digits_aux_app, dec_acc_app, IH.
      * cbn [dec_acc]. rewrite digit_byte by (apply Z.mod_pos_bound; lia).
        pose proof (Z.div_mod n 10). lia.
      * rewrite Nat2Z.inj_succ, Z.pow_succ_r in Hn by lia.
        split; [apply Z.div_pos; lia|]. apply Z.div_lt_upper_bound; lia.
Qed.

Lemma digits_aux_digits f n acc :
  0 <= n -> forallb is_digit (list_ascii_of_string acc) = true ->
  forallb is_digit (list_ascii_of_string (digits_aux f n acc)) = true.
Proof.
  revert n acc. induction f as [|f IH]; intros n acc Hn Ha; [exact Ha|].
  assert (Hd : is_digit (ascii_of_nat (48 + Z.to_nat (n mod 10))) = true).
  { unfold is_digit. pose proof (Z.mod_pos_bound n 10 ltac:(lia)).
    rewrite nat_ascii_embedding by lia. apply andb_true_intro.
    split; apply Nat.leb_le; lia. }
  cbn [digits_aux]. destruct (Z.ltb n 10).
  - cbn [list_ascii_of_string forallb]. rewrite Hd. exact Ha.
  - apply IH; [apply Z.div_pos; lia|]. cbn [list_ascii_of_string forallb]. rewrite Hd. exact Ha.
Qed.

Lemma pos_size_bound p : Z.pos p < 2 ^ Z.of_nat (Pos.size_nat p).
Proof.
  induction p as [p IH|p IH|]; cbn [Pos.size_nat]; rewrite ?Nat2Z.inj_succ, ?Z.pow_succ_r by lia;
    [rewrite Pos2Z.inj_xI| rewrite Pos2Z.inj_xO|cbn]; lia.
Qed.

(** X13.  [str] of a non-negative int, as the subject and the summary line
    print the paper count, is its decimal expansion: digits only, reading
    back to the number. *)
Theorem X13_str_int_decimal n :
  0 <= n ->
  dec_acc 0 (str_int n) = n /\ forallb is_digit (list_ascii_of_string (str_int n)) = true.
Proof.
  intro Hn. unfold str_int.
  destruct (Z.ltb n 0) eqn:E; [apply Z.ltb_lt in E; lia|].
  split; [|apply digits_aux_digits; [exact Hn|reflexivity]].
  apply digits_aux_value. split; [exact Hn|].
  set (k := Pos.size_nat (Z.to_pos n)).
  assert (H2 : n < 2 ^ Z.of_nat k).
  { destruct n as [|p|p]; [cbn; lia| |lia]. apply pos_size_bound. }
  assert (H3 : 2 ^ Z.of_nat k <= 10 ^ Z.of_nat k) by (apply Z.pow_le_mono_l; lia).
  assert (H4 : 10 ^ Z.of_nat k < 10 ^ Z.of_nat (S k)).
  { rewrite Nat2Z.inj_succ, Z.pow_succ_r by lia. pose proof (Z.pow_pos_nonneg 10 (Z.of_nat k)). lia. }
  lia.
Qed.

Lemma X13_witness :
  dec_acc 0 (str_int 1024) = 1024 /\
  forallb is_digit (list_ascii_of_string (str_int 1024)) = true.
Proof. apply X13_str_int_decimal. lia. Defined.

Lemma gemini_calls_app t1 t2 :
  gemini_calls (t1 ++ t2) = (gemini_calls t1 ++ gemini_calls t2)%list.
Proof. apply flat_map_app. Qed.

Lemma gemini_calls_call i t tr : gemini_calls (GeminiCall i t :: tr) = (i, t) :: gemini_calls tr.
Proof. reflexivity. Qed.

Lemma gemini_calls_sleep s tr : gemini_calls (Sleep s :: tr) = gemini_calls tr.
Proof. reflexivity. Qed.

Lemma gemini_calls_paced g i cands :
  gemini_calls (paced_trace g i cands) = combine (seq i (List.length cands)) (map title cands).
Proof.
  revert i. induction cands as [|p rest IH]; intro i; [reflexivity|].
  cbn [paced_trace].
  destruct (g i p) as [|[v|]]; cbn [app]; rewrite gemini_calls_call, ?gemini_calls_sleep, IH;
    reflexivity.
Qed.

(** X14.  A completed scoring loop reviews every candidate exactly once, in
    list order: its Gemini calls are numbered consecutively from the start
    index and carry the candidates' titles. *)
Theorem X14_each_reviewed_once g i cands tr r tr' :
  review_loop g i cands tr = (Ok r, tr') ->
  gemini_calls tr' = (gemini_calls tr ++ combine (seq i (List.length cands)) (map title cands))%list.
Proof.
  intro H. rewrite (review_loop_paced _ _ _ _ _ _ H), gemini_calls_app, gemini_calls_paced.
  reflexivity.
Qed.

Lemma X14_witness :
  gemini_calls (snd (review_loop (reply 3) 0 [to_candidate res_B; to_candidate res_A] []))
  = [(O, "B"); (1%nat, "A")].
Proof.
  exact (X14_each_reviewed_once (reply 3) O [to_candidate res_B; to_candidate res_A] [] _ _ eq_refl).
Defined.

Lemma strip_enrich p s r : strip (enrich p s r) = strip p.
Proof. reflexivity. Qed.

(** X15.  The loop only adds keys: after a completed loop the candidate
    list has the same papers in the same order, up to the score and reason
    keys, and the kept papers are at most as many. *)
Theorem X15_loop_preserves_candidates g i cands tr cs hq tr' :
  review_loop g i cands tr = (Ok (cs, hq), tr') ->
  map strip cs = map strip cands /\ (List.length hq <= List.length cands)%nat.
Proof.
  intro H. apply review_loop_rel in H.
  split.
  - induction H; cbn [map]; rewrite ?strip_enrich; congruence.
  - induction H; cbn [List.length]; lia.
Qed.

Lemma X15_witness :
  map strip [to_candidate res_B; enrich (to_candidate res_A) (JNum 8) (JStr "r")]
    = map strip [to_candidate res_B; to_candidate res_A] /\
  (List.length [enrich (to_candidate res_A) (JNum 8) (JStr "r")] <= 2)%nat.
Proof.
  exact (X15_loop_preserves_candidates
           (fun j p => if Nat.eqb j 0 then reply 5 j p else reply 8 j p) O
           [to_candidate res_B; to_candidate res_A] [] _ _ _ eq_refl).
Defined.

Lemma digits_no_char c s :
  forallb is_digit (list_ascii_of_string s) = true -> is_digit c = false -> count_char c s = O.
Proof.
  intros Hs Hc. induction s as [|d s IH]; [reflexivity|].
  cbn [list_ascii_of_string forallb] in Hs. apply andb_prop in Hs as [Hd Hs].
  cbn [count_char]. rewrite (IH Hs).
  destruct (Ascii.eqb c d) eqn:E; [|reflexivity].
  apply Ascii.eqb_eq in E. subst d. congruence.
Qed.

Lemma str_int_nat_no_char c (k : nat) :
  is_digit c = false -> count_char c (str_int (Z.of_nat k)) = O.
Proof.
  intro Hc. apply digits_no_char; [|exact Hc].
  unfold str_int. destruct (Z.ltb (Z.of_nat k) 0) eqn:E; [apply Z.ltb_lt in E; lia|].
  apply digits_aux_digits; [lia|reflexivity].
Qed.

Lemma render_paper_newlines content p :
  count_char (ascii_of_nat 10) (render_paper content p)
  = (count_char (ascii_of_nat 10) content + paper_newlines p)%nat.
Proof.
  unfold render_paper, paper_newlines. rewrite !count_char_app. cbn -[field]. lia.
Qed.

Lemma count1_other c d : Ascii.eqb c d = false -> count_char c (String d "") = O.
Proof. intro H. cbn. rewrite H. reflexivity. Qed.

Lemma nl_other a : nat_of_ascii a <> 10%nat -> Ascii.eqb (ascii_of_nat 10) a = false.
Proof.
  intro H. destruct (Ascii.eqb (ascii_of_nat 10) a) eqn:E; [|reflexivity].
  apply Ascii.eqb_eq in E. subst a. exfalso. apply H. reflexivity.
Qed.

Lemma hex_not_nl d : (d < 16)%nat -> Ascii.eqb (ascii_of_nat 10) (hex_digit d) = false.
Proof.
  intro H. do 16 (destruct d as [|d]; [reflexivity|]). lia.
Qed.

Lemma repr_body_no_nl q s :
  Ascii.eqb (ascii_of_nat 10) q = false -> count_char (ascii_of_nat 10) (repr_body q s) = O.
Proof.
  intro Hq. induction s as [|a s IH]; [reflexivity|].
  cbn [repr_body]. rewrite count_char_app, IH, Nat.add_0_r.
  pose proof (nat_ascii_bounded a) as Hb.
  destruct (Ascii.eqb a q || Ascii.eqb a "\"%char) eqn:E1.
  { apply orb_true_iff in E1. cbn [count_char]. rewrite Nat.add_0_r.
    replace (Ascii.eqb (ascii_of_nat 10) a) with false; [reflexivity|].
    destruct E1 as [E|E]; apply Ascii.eqb_eq in E; subst a; [congruence|reflexivity]. }
  destruct (Nat.eqb (nat_of_ascii a) 9); [reflexivity|].
  destruct (Nat.eqb (nat_of_ascii a) 10) eqn:E10; [reflexivity|].
  destruct (Nat.eqb (nat_of_ascii a) 13); [reflexivity|].
  destruct (Nat.ltb (nat_of_ascii a) 32 || Nat.eqb (nat_of_ascii a) 127).
  - cbn [count_char]. rewrite !hex_not_nl; [reflexivity| |].
    + apply Nat.mod_upper_bound. lia.
    + apply Nat.Div0.div_lt_upper_bound. lia.
  - apply count1_other, nl_other. apply Nat.eqb_neq. exact E10.
Qed.

Lemma repr_str_no_nl s : count_char (ascii_of_nat 10) (py_repr_str s) = O.
Proof.
  unfold py_repr_str.
  destruct (has_char "'"%char s && negb (has_char "034"%char s));
    cbn [count_char]; rewrite count_char_app, repr_body_no_nl by reflexivity; reflexivity.
Qed.

Lemma str_int_no_nl n : count_char (ascii_of_nat 10) (str_int n) = O.
Proof.
  unfold str_int. destruct (Z.ltb n 0) eqn:E.
  - apply Z.ltb_lt in E. rewrite count_char_app.
    rewrite (digits_no_char _ (digits_aux _ _ _)); [reflexivity| |reflexivity].
    apply digits_aux_digits; [lia|reflexivity].
  - apply Z.ltb_ge in E. apply digits_no_char; [|reflexivity].
    apply digits_aux_digits; [lia|reflexivity].
Qed.

Lemma join_no_nl sep xs :
  count_char (ascii_of_nat 10) sep = O ->
  Forall (fun x => count_char (ascii_of_nat 10) x = O) xs ->
  count_char (ascii_of_nat 10) (join sep xs) = O.
Proof.
  intros Hs Hx. rewrite count_char_join, Hs, Nat.mul_0_r, Nat.add_0_r.
  induction Hx as [|x xs Hx0 Hxs IH]; [reflexivity|]. cbn [map]. rewrite list_sum_cons, Hx0, IH. reflexivity.
Qed.

Lemma assoc_last_str_in k kv v : assoc_last_str k kv = Some v -> In v (map snd kv).
Proof.
  induction kv as [|[k' w] kv IH]; cbn; [discriminate|].
  destruct (assoc_last_str k kv) as [u|].
  - intro H. injection H as <-. right. apply IH. reflexivity.
  - destruct (String.eqb k k'); [|discriminate]. intro H. injection H as <-. left. reflexivity.
Qed.

Lemma dict_items_no_nl seen kv all :
  Forall (fun ks => count_char (ascii_of_nat 10) (snd ks) = O) all ->
  Forall (fun x => count_char (ascii_of_nat 10) x = O) (dict_items seen kv all).
Proof.
  intro Ha. revert seen. induction kv as [|[k w] kv IH]; intro seen; [constructor|].
  cbn [dict_items]. destruct (existsb (String.eqb k) seen); [apply IH|].
  constructor; [|apply IH].
  rewrite !count_char_app, repr_str_no_nl.
  destruct (assoc_last_str k all) as [v|] eqn:E; [|reflexivity].
  apply assoc_last_str_in, in_map_iff in E. destruct E as [[k' v'] [<- Hin]].
  rewrite Forall_forall in Ha. rewrite (Ha _ Hin). reflexivity.
Qed.

(** How a JSON value is printed inside a list or dict holds no newline. *)
Lemma repr_no_nl : forall v,
  count_char (ascii_of_nat 10) (match v with JStr s => py_repr_str s | _ => py_str v end) = O.
Proof.
  fix IH 1. intros [|b|n|str|xs|kv].
  - reflexivity.
  - destruct b; reflexivity.
  - apply str_int_no_nl.
  - apply repr_str_no_nl.
  - cbn [py_str]. rewrite !count_char_app. rewrite join_no_nl; [reflexivity|reflexivity|].
    clear -IH. revert xs. fix IHl 1. intros [|a xs]; constructor; [exact (IH a)|exact (IHl xs)].
  - cbn [py_str]. rewrite !count_char_app. rewrite join_no_nl; [reflexivity|reflexivity|].
    apply dict_items_no_nl.
    clear -IH. revert kv. fix IHl 1. intros [|[k w] kv]; constructor; [exact (IH w)|exact (IHl kv)].
Qed.

(** X16.  The report's line breaks are the two after the summary line,
    four per paper, and those inside the date and the printed fields: a
    title, URL or string reason is written as received, so a newline inside
    it splits its line, while a list or dict reason is printed by [repr],
    which escapes newlines, and adds none. *)
Theorem X16_report_newlines date hq :
  count_char (ascii_of_nat 10) (render date hq)
  = (2 + count_char (ascii_of_nat 10) date + list_sum (map paper_newlines hq))%nat /\
  (forall xs, count_char (ascii_of_nat 10) (field (Some (JArr xs))) = O) /\
  (forall kv, count_char (ascii_of_nat 10) (field (Some (JObj kv))) = O).
Proof.
  split; [|split; [intro xs; exact (repr_no_nl (JArr xs))|intro kv; exact (repr_no_nl (JObj kv))]].
  unfold render.
  assert (H : forall c0, count_char (ascii_of_nat 10) (fold_left render_paper hq c0)
                         = (count_char (ascii_of_nat 10) c0 + list_sum (map paper_newlines hq))%nat).
  { induction hq as [|p hq IH]; intro c0; [cbn; lia|].
    cbn [fold_left map]. rewrite IH, render_paper_newlines, list_sum_cons. lia. }
  rewrite H. unfold header. rewrite !count_char_app, str_int_nat_no_char by reflexivity.
  cbn. lia.
Qed.

(** X17.  The subject is one header line: for any paper count it holds
    no line feed and no carriage return. *)
Theorem X17_subject_one_line (k : nat) :
  count_char (ascii_of_nat 10) (subject (Z.of_nat k)) = O /\
  count_char (ascii_of_nat 13) (subject (Z.of_nat k)) = O.
Proof.
  unfold subject. rewrite !count_char_app, !str_int_nat_no_char by reflexivity.
  split; reflexivity.
Qed.
